(** * Client-side verification scripts of the dynamic pod lifecycle system

    A shallow embedding of [test-e2e-flow.py] and [test-nlb-session.py].
    Both scripts are straight-line Python programs whose only effects are
    reading the wall clock, issuing HTTP calls through [requests], printing
    to standard output and (for the end-to-end flow) leaving the process
    through [sys.exit].  The embedding threads an explicit world through a
    small state-and-completion monad: the world holds the clock, the log of
    HTTP calls issued so far with what the transport answered, and the lines
    printed so far.

    What lies outside the two files is a parameter: the network decides the
    outcome and the duration of every call, the JSON decoder decides which
    bodies decode.  The transport raises instances of [Exception] only (no
    keyboard interrupt), printing never fails, and only calls on the
    transport take time. *)

From Stdlib Require Import ZArith QArith Lqa Lia List String Ascii Bool.
From Stdlib Require Import DecimalString DecimalZ.
Import ListNotations.

Local Open Scope Z_scope.
Local Open Scope string_scope.

(** ** The Python values the scripts handle *)

Inductive Method := GET | POST.

(** The keyword arguments of [requests.get] / [requests.post].  A JSON body
    and the headers are dictionaries of string literals in both scripts;
    [timeout = None] is what [requests] uses when no timeout is passed
    (wait for ever). *)
Record Request := mkRequest {
  method  : Method;
  url     : string;
  json    : option (list (string * string));
  headers : list (string * string);
  timeout : option Z
}.

(** What the scripts read of a [requests.Response]. *)
Record Response := mkResponse {
  status_code : Z;
  text        : string
}.

(** An exception object, seen through the two [isinstance] tests the scripts
    make and through [str(e)].  Every exception here is an instance of
    [Exception]; in [requests], [ConnectTimeout] is an instance of both
    [Timeout] and [ConnectionError]. *)
Record PyExc := mkExc {
  is_Timeout         : bool;
  is_ConnectionError : bool;
  exc_str            : string
}.

(** The exception classes named in the scripts' [except] clauses. *)
Inductive ExcClass :=
| requests_Timeout
| requests_ConnectionError
| builtin_Exception.

Definition isinstance (e : PyExc) (c : ExcClass) : bool :=
  match c with
  | requests_Timeout => is_Timeout e
  | requests_ConnectionError => is_ConnectionError e
  | builtin_Exception => true
  end.

(** ** The world *)

(** One HTTP call: the request issued and what the transport did with it. *)
Definition Outcome : Type := PyExc + Response.
Definition Call : Type := Request * Outcome.

(** The network is outside the program: given the calls made so far and the
    next request it decides the outcome and how many seconds the call
    blocked. *)
Definition Network : Type := list Call -> Request -> Outcome * Q.

Record World := mkWorld {
  clock  : Q;            (* what time.time() would return now *)
  calls  : list Call;    (* HTTP calls issued so far, oldest first *)
  stdout : list string   (* one entry per print(...) call, oldest first *)
}.

(** ** Statements and their completions *)

Inductive Completion (A : Type) :=
| Normal (a : A)
| Raised (e : PyExc)          (* an Exception propagates *)
| SystemExit (code : Z).      (* sys.exit: a BaseException, not an Exception *)
Arguments Normal {A} a.
Arguments Raised {A} e.
Arguments SystemExit {A} code.

Definition Py (A : Type) : Type := World -> Completion A * World.

Definition ret {A} (a : A) : Py A := fun w => (Normal a, w).

Definition bind {A B} (m : Py A) (k : A -> Py B) : Py B :=
  fun w =>
    match m w with
    | (Normal a, w') => k a w'
    | (Raised e, w') => (Raised e, w')
    | (SystemExit c, w') => (SystemExit c, w')
    end.

Declare Scope py_scope.
Delimit Scope py_scope with py.
Notation "x <- m ;; k" := (bind m (fun x => k))
  (at level 100, m at next level, right associativity) : py_scope.
Notation "m ;; k" := (bind m (fun _ => k))
  (at level 100, right associativity) : py_scope.

Definition raise {A} (e : PyExc) : Py A := fun w => (Raised e, w).

Definition sys_exit {A} (code : Z) : Py A := fun w => (SystemExit code, w).

Definition print (line : string) : Py unit :=
  fun w => (Normal tt,
            {| clock := clock w; calls := calls w;
               stdout := (stdout w ++ [line])%list |}).

Definition time_time : Py Q := fun w => (Normal (clock w), w).

(** [try: body except C1 as e: h1 except C2 as e: h2 ...]: the first clause
    whose class the exception is an instance of handles it; an exception no
    clause matches, and [SystemExit], propagate. *)
Fixpoint matching_clause {H} (clauses : list (ExcClass * H)) (e : PyExc)
  : option (ExcClass * H) :=
  match clauses with
  | [] => None
  | (c, h) :: rest =>
      if isinstance e c then Some (c, h) else matching_clause rest e
  end.

Definition try_except {A} (body : Py A)
    (clauses : list (ExcClass * (PyExc -> Py A))) : Py A :=
  fun w =>
    match body w with
    | (Raised e, w') =>
        match matching_clause clauses e with
        | Some (_, h) => h e w'
        | None => (Raised e, w')
        end
    | r => r
    end.

(** The exit status of the interpreter once the module body has completed:
    0 when it runs off its end, the argument of [sys.exit], 1 for an
    uncaught exception. *)
Definition exit_status {A} (c : Completion A) : Z :=
  match c with
  | Normal _ => 0
  | Raised _ => 1
  | SystemExit code => code
  end.

(** ** Library functions *)

(** [int(x)] on a float truncates towards zero.  A finite float is a
    rational number, which is how the clock is kept. *)
Definition int_of_float (x : Q) : Z := Z.quot (Qnum x) (Zpos (Qden x)).

(** [str(n)] / [f"{n}"] for an integer: decimal digits, a leading minus sign
    for negative numbers. *)
Definition str_of_int (n : Z) : string := NilZero.string_of_int (Z.to_int n).

Definition newline : string := String (ascii_of_nat 10) EmptyString.

(** [s * n] *)
Fixpoint str_repeat (s : string) (n : nat) : string :=
  match n with
  | O => ""
  | S n' => s ++ str_repeat s n'
  end.

(** [requests.request]: the call is logged with its outcome, the clock
    advances by the time the call blocked, and the outcome is returned or
    raised. *)
Definition requests_request (network : Network) (req : Request) : Py Response :=
  fun w =>
    let '(o, dt) := network (calls w) req in
    let w' := {| clock := clock w + dt;
                 calls := (calls w ++ [(req, o)])%list;
                 stdout := stdout w |} in
    match o with
    | inl e => (Raised e, w')
    | inr r => (Normal r, w')
    end.

Definition requests_get (network : Network) (u : string) (t : option Z)
  : Py Response :=
  requests_request network
    {| method := GET; url := u; json := None; headers := []; timeout := t |}.

Definition requests_post (network : Network) (u : string)
    (body : option (list (string * string))) (hs : list (string * string))
    (t : option Z) : Py Response :=
  requests_request network
    {| method := POST; url := u; json := body; headers := hs; timeout := t |}.

Definition world0 (now : Q) : World :=
  {| clock := now; calls := []; stdout := [] |}.

(** ** test-e2e-flow.py *)

Module E2E.

Definition API_GATEWAY_URL : string :=
  "http://api-gateway.sessions.svc.cluster.local:8000".

(** [SESSION_ID = f"test-session-{int(time.time())}"], as a function of what
    [time.time()] returned. *)
Definition SESSION_ID (now : Q) : string :=
  "test-session-" ++ str_of_int (int_of_float now).

(** The body of the [try] block. *)
Definition steps (network : Network) (SESSION_ID : string) : Py unit :=
  (print "Step 1: Sending request to create session..." ;;
   response <- requests_post network
     (API_GATEWAY_URL ++ "/api/v1/session/" ++ SESSION_ID ++ "/execute")
     (Some [("action", "test"); ("data", "hello")]) [] (Some 30) ;;
   print ("Response Status: " ++ str_of_int (status_code response)) ;;
   print ("Response: " ++ text response ++ newline) ;;
   print "Step 2: Checking session status..." ;;
   response <- requests_get network
     (API_GATEWAY_URL ++ "/api/v1/session/" ++ SESSION_ID ++ "/status")
     (Some 10) ;;
   print ("Response Status: " ++ str_of_int (status_code response)) ;;
   print ("Response: " ++ text response ++ newline) ;;
   print "Step 3: Sending second request to same session..." ;;
   response <- requests_post network
     (API_GATEWAY_URL ++ "/api/v1/session/" ++ SESSION_ID ++ "/execute")
     (Some [("action", "test2"); ("data", "world")]) [] (Some 10) ;;
   print ("Response Status: " ++ str_of_int (status_code response)) ;;
   print ("Response: " ++ text response ++ newline) ;;
   print "✅ End-to-end test completed successfully!" ;;
   sys_exit 0)%py.

(** The three [except] clauses, in the order they are written. *)
Definition handlers : list (ExcClass * (PyExc -> Py unit)) :=
  [ (requests_Timeout,
      fun e => (print ("❌ Timeout error: " ++ exc_str e) ;; sys_exit 1)%py);
    (requests_ConnectionError,
      fun e => (print ("❌ Connection error: " ++ exc_str e) ;; sys_exit 1)%py);
    (builtin_Exception,
      fun e => (print ("❌ Error: " ++ exc_str e) ;; sys_exit 1)%py) ].

(** The module body. *)
Definition main (network : Network) : Py unit :=
  (now <- time_time ;;
   let SESSION_ID := SESSION_ID now in
   print "=== End-to-End Flow Test ===" ;;
   print ("Session ID: " ++ SESSION_ID) ;;
   print ("API Gateway: " ++ API_GATEWAY_URL ++ newline) ;;
   try_except (steps network SESSION_ID) handlers)%py.

(** One run of the script started when the clock shows [now]. *)
Definition run (network : Network) (now : Q) : Completion unit * World :=
  main network (world0 now).

Definition exit_code (network : Network) (now : Q) : Z :=
  exit_status (fst (run network now)).

End E2E.

(** ** test-nlb-session.py *)

Module NLB.

Definition NLB_URL : string :=
  "http://ad171b9bedd35460890473e6baf67a42-b4ef754c96f0229e.elb.ap-south-1.amazonaws.com".

(** [session_id = f"test-nlb-{int(time.time())}"], as a function of what
    [time.time()] returned. *)
Definition session_id (now : Q) : string :=
  "test-nlb-" ++ str_of_int (int_of_float now).

Section Script.

(** The JSON library is outside the repository: [J] is the type of decoded
    documents, [json_loads] decodes a response body or gives the message of
    the [JSONDecodeError] it raises, [py_str] is [str] of a decoded document
    and [json_dumps] is [json.dumps(_, indent=2)]. *)
Variable J : Type.
Variable json_loads : string -> string + J.
Variable py_str : J -> string.
Variable json_dumps : J -> string.
Variable network : Network.

(** [response.json()]; a [JSONDecodeError] is neither a [Timeout] nor a
    [ConnectionError]. *)
Definition response_json (response : Response) : Py J :=
  match json_loads (text response) with
  | inl msg =>
      raise {| is_Timeout := false; is_ConnectionError := false;
               exc_str := msg |}
  | inr j => ret j
  end.

Definition health_handlers : list (ExcClass * (PyExc -> Py bool)) :=
  [ (builtin_Exception,
      fun e => (print ("Error: " ++ exc_str e) ;; ret false)%py) ].

Definition test_health : Py bool :=
  (print "Testing health endpoint..." ;;
   try_except
     (response <- requests_get network (NLB_URL ++ "/health") (Some 10) ;;
      print ("Status: " ++ str_of_int (status_code response)) ;;
      j <- response_json response ;;
      print ("Response: " ++ py_str j) ;;
      ret (status_code response =? 200)%Z)
     health_handlers)%py.

Definition session_handlers : list (ExcClass * (PyExc -> Py bool)) :=
  [ (builtin_Exception,
      fun e => (print ("Error: " ++ exc_str e) ;; ret false)%py) ].

Definition test_session_creation : Py bool :=
  (print (newline ++ "Testing session creation...") ;;
   now <- time_time ;;
   let session_id := session_id now in
   try_except
     (response <- requests_post network (NLB_URL ++ "/sessions")
        (Some [("session_id", session_id)])
        [("Content-Type", "application/json")] (Some 30) ;;
      print ("Status: " ++ str_of_int (status_code response)) ;;
      j <- response_json response ;;
      print ("Response: " ++ json_dumps j) ;;
      ret (status_code response =? 201)%Z)
     session_handlers)%py.

(** The [if __name__ == "__main__":] block. *)
Definition main : Py unit :=
  (print (str_repeat "=" 60) ;;
   print "Testing Dynamic Pod Lifecycle System via NLB" ;;
   print (str_repeat "=" 60) ;;
   health_ok <- test_health ;;
   if health_ok : bool then
     session_ok <- test_session_creation ;;
     if session_ok : bool then
       print (newline ++ "✅ ALL TESTS PASSED!")
     else
       print (newline ++ "❌ Session creation failed")
   else
     print (newline ++ "❌ Health check failed"))%py.

Definition run (now : Q) : Completion unit * World := main (world0 now).

Definition exit_code (now : Q) : Z := exit_status (fst (run now)).

End Script.

End NLB.

(** ** The vocabulary of the specification *)

(** The failure kinds of a Step Outcome. *)
Inductive FailureKind := Timeout | ConnectionError | UnexpectedStatus | OtherError.

(** The kind an [except] clause stands for: the two [requests] classes name
    their kind, the catch-all [except Exception] is the generic error. *)
Definition kind_of_clause (c : ExcClass) : FailureKind :=
  match c with
  | requests_Timeout => Timeout
  | requests_ConnectionError => ConnectionError
  | builtin_Exception => OtherError
  end.

(** The kind under which a [try] statement with these clauses reports an
    exception: that of the clause that handles it. *)
Definition failure_kind {H} (clauses : list (ExcClass * H)) (e : PyExc)
  : option FailureKind :=
  match matching_clause clauses e with
  | Some (c, _) => Some (kind_of_clause c)
  | None => None
  end.

(** A call the transport answered with a response, whatever its status. *)
Definition received (c : Call) : bool :=
  match snd c with
  | inr _ => true
  | inl _ => false
  end.

(** The line printed last. *)
Definition last_line (w : World) : string := last (stdout w) "".



(** ** Concrete transports and decoders for the scenarios *)

Module Scenario.

Definition read_timeout : PyExc :=
  {| is_Timeout := true; is_ConnectionError := false;
     exc_str := "Read timed out. (read timeout=10)" |}.

Definition refused : PyExc :=
  {| is_Timeout := false; is_ConnectionError := true;
     exc_str := "Connection refused" |}.

Definition generic_error (msg : string) : PyExc :=
  {| is_Timeout := false; is_ConnectionError := false; exc_str := msg |}.

(** Every endpoint answers 500 after half a second. *)
Definition all_500 : Network :=
  fun _ _ => (inr {| status_code := 500; text := "Internal Server Error" |}, 1 # 2).

(** Nothing listens: every call is refused at once. *)
Definition all_refused : Network := fun _ _ => (inl refused, 0%Q).

(** Every call ends with [o] exactly when its timeout expires (at once when
    it carries none). *)
Definition at_deadline (o : Outcome) : Network :=
  fun _ req =>
    (o, match timeout req with Some t => inject_Z t | None => 0%Q end).

(** Every call times out. *)
Definition all_timeout : Network := at_deadline (inl read_timeout).

(** Every call fails with the exception [e]. *)
Definition always_raises (e : PyExc) : Network := fun _ _ => (inl e, 0%Q).

(** The first call is answered with [first], every later call times out. *)
Definition then_timeout (first : Response) : Network :=
  fun history _ =>
    match history with
    | [] => (inr first, 1 # 4)
    | _ => (inl read_timeout, 10 # 1)
    end.

(** Every call is answered with the same response. *)
Definition always (r : Response) : Network := fun _ _ => (inr r, 1 # 10).

(** The load balancer is up: the first call is answered 200, the next 201,
    both with an empty JSON object. *)
Definition healthy : Network :=
  fun history _ =>
    match history with
    | [] => (inr {| status_code := 200; text := "{}" |}, 1 # 10)
    | _ => (inr {| status_code := 201; text := "{}" |}, 1 # 5)
    end.

(** The connection attempt itself times out: in [requests] a
    [ConnectTimeout] is both a [ConnectionError] and a [Timeout]. *)
Definition connect_timeout : PyExc :=
  {| is_Timeout := true; is_ConnectionError := true;
     exc_str := "Connection to api-gateway timed out. (connect timeout=30)" |}.


(** A stand-in decoder: a body is a JSON document when it starts with an
    opening brace; the decoded document is kept as its text. *)
Definition toy_json_loads (body : string) : string + string :=
  match body with
  | String "{" _ => inr body
  | _ => inl "Expecting value: line 1 column 1 (char 0)"
  end.

Definition toy_str (j : string) : string := j.

Definition nlb_run : Network -> Q -> Completion unit * World :=
  NLB.run string toy_json_loads toy_str toy_str.

Definition nlb_exit_code : Network -> Q -> Z :=
  NLB.exit_code string toy_json_loads toy_str toy_str.

Definition nlb_test_health (network : Network) : Py bool :=
  NLB.test_health string toy_json_loads toy_str network.

End Scenario.

(** * Properties *)

(** ** Stepping through a run *)

(** Unfold the script down to the calls on the transport. *)
Ltac unfold_script :=
  cbv [E2E.exit_code E2E.run E2E.main E2E.steps E2E.handlers
       NLB.exit_code NLB.run NLB.main NLB.test_health
       NLB.test_session_creation NLB.health_handlers NLB.session_handlers
       NLB.response_json last_line
       try_except matching_clause isinstance bind ret raise sys_exit print
       time_time requests_post requests_get requests_request world0
       exit_status];
  cbn [clock calls stdout fst snd app].

(** Case analysis on the next answer of the transport. *)
Ltac next_call network :=
  match goal with
  | |- context [network ?h ?r] =>
      let o := fresh "o" in
      let dt := fresh "dt" in
      let N := fresh "N" in
      destruct (network h r) as [[o | o] dt] eqn:N;
      cbn [clock calls stdout fst snd app]
  end.

(** Case analysis on whether a response body decodes, and on the comparison
    of a status code with the expected one. *)
Ltac next_test :=
  match goal with
  | |- context [match ?loads (text ?r) with inl _ => _ | inr _ => _ end] =>
      let D := fresh "D" in
      destruct (loads (text r)) eqn:D
  | |- context [Z.eqb (status_code ?r) ?n] =>
      let S := fresh "S" in
      destruct (Z.eqb (status_code r) n) eqn:S
  end;
  cbn [clock calls stdout fst snd app].

Ltac run_script network :=
  unfold_script; repeat first [next_call network | next_test].

(** Case analysis on the [except] clause that handles a raised exception. *)
Ltac pick_clause :=
  repeat match goal with
    | |- context [if is_Timeout ?e then _ else _] =>
        destruct (is_Timeout e) eqn:?
    | |- context [if is_ConnectionError ?e then _ else _] =>
        destruct (is_ConnectionError e) eqn:?
    end;
  cbn [clock calls stdout fst snd app].

(** ** The scripts on sample transports *)

Example nlb_all_tests_passed :
  let run := Scenario.nlb_run Scenario.healthy (1700000000 # 1) in
  fst run = Normal tt /\
  map (fun c : Call => (url (fst c), json (fst c))) (calls (snd run))
    = [ (NLB.NLB_URL ++ "/health", None);
        (NLB.NLB_URL ++ "/sessions",
         Some [("session_id", "test-nlb-1700000000")]) ] /\
  last_line (snd run) = newline ++ "✅ ALL TESTS PASSED!".
Proof. vm_compute. repeat split. Qed.

Example nlb_session_creation_times_out :
  let run :=
    Scenario.nlb_run
      (Scenario.then_timeout {| status_code := 200; text := "{}" |}) 0 in
  map snd (calls (snd run))
    = [ inr {| status_code := 200; text := "{}" |};
        inl Scenario.read_timeout ] /\
  last_line (snd run) = newline ++ "❌ Session creation failed".
Proof. vm_compute. repeat split. Qed.

Example e2e_timeout_at_second_step :
  let run :=
    E2E.run (Scenario.then_timeout {| status_code := 200; text := "ok" |})
            (5 # 2) in
  fst run = SystemExit 1 /\
  stdout (snd run)
    = [ "=== End-to-End Flow Test ===";
        "Session ID: test-session-2";
        ("API Gateway: " ++ E2E.API_GATEWAY_URL ++ newline)%string;
        "Step 1: Sending request to create session...";
        "Response Status: 200";
        ("Response: ok" ++ newline)%string;
        "Step 2: Checking session status...";
        ("❌ Timeout error: " ++ exc_str Scenario.read_timeout)%string ].
Proof. vm_compute. repeat split. Qed.

Example int_of_float_truncates :
  int_of_float (5 # 2) = 2 /\ int_of_float (-5 # 2) = -2 /\
  str_of_int (-2) = "-2" /\ str_of_int 0 = "0".
Proof. vm_compute. repeat split. Qed.

(** ** Exit status *)

Lemma e2e_exit_code_cases (network : Network) (now : Q) :
  let cs := calls (snd (E2E.run network now)) in
  (E2E.exit_code network now = 0 /\
   List.length cs = 3%nat /\ forallb received cs = true)
  \/
  (E2E.exit_code network now = 1 /\
   existsb (fun c => negb (received c)) cs = true).
Proof.
  run_script network; pick_clause; cbn; auto.
Qed.

Lemma nlb_exit_code_0 J json_loads py_str json_dumps network now :
  NLB.exit_code J json_loads py_str json_dumps network now = 0.
Proof.
  run_script network; reflexivity.
Qed.

Lemma existsb_negb_forallb {A} (f : A -> bool) (l : list A) :
  existsb (fun x => negb (f x)) l = negb (forallb f l).
Proof.
  induction l as [| x l IH]; cbn; [reflexivity |].
  rewrite IH. now destruct (f x).
Qed.

(** C1, as amended.  In the end-to-end flow script the exit code is 0 exactly
    when all three calls were made and each was answered with a response,
    and it is 1 exactly when some call raised (a timeout, a connection error
    or any other exception).  The NLB script never sets an exit status: it
    exits with 0 whatever its steps did. *)
Theorem exit_code_of_a_run :
  forall (network : Network) (now : Q),
    let cs := calls (snd (E2E.run network now)) in
    (E2E.exit_code network now = 0 <->
       List.length cs = 3%nat /\ forallb received cs = true) /\
    (E2E.exit_code network now = 1 <->
       existsb (fun c => negb (received c)) cs = true) /\
    (forall J json_loads py_str json_dumps,
       NLB.exit_code J json_loads py_str json_dumps network now = 0).
Proof.
  intros network now cs.
  pose proof (existsb_negb_forallb received cs) as E.
  pose proof (e2e_exit_code_cases network now) as C.
  cbv zeta in C. fold cs in C.
  destruct C as [(H0 & Hlen & Hall) | (H1 & Hex)].
  - rewrite H0, E, Hall. cbn.
    repeat split; auto using nlb_exit_code_0; discriminate.
  - rewrite H1, Hex. rewrite Hex in E.
    repeat split; auto using nlb_exit_code_0; try discriminate.
    intros [_ Hall]. rewrite Hall in E. discriminate.
Qed.

(** C1, the claim as stated fails on the NLB script: with the load balancer
    refusing the connection the health step fails with a connection error,
    the failure is printed, and the process still exits with 0. *)
Lemma nlb_exits_0_after_refused_health_check :
  map snd (calls (snd (Scenario.nlb_run Scenario.all_refused 0)))
    = [inl Scenario.refused] /\
  last_line (snd (Scenario.nlb_run Scenario.all_refused 0))
    = newline ++ "❌ Health check failed" /\
  Scenario.nlb_exit_code Scenario.all_refused 0 = 0.
Proof. vm_compute. repeat split. Qed.

(** ** Fail-fast *)

(** C2.  In the end-to-end flow, a call that raised is the last call of the
    run: when the call at position [k] (counting from 0) fails, exactly
    [k + 1] calls were made.  In the NLB script, when the health step
    returns [False] the session-creation step is not run: the calls of the
    whole run are the one call of the health step. *)
Theorem fail_fast :
  (forall (network : Network) (now : Q) (k : nat) (req : Request) (e : PyExc),
     nth_error (calls (snd (E2E.run network now))) k = Some (req, inl e) ->
     List.length (calls (snd (E2E.run network now))) = S k) /\
  (forall J json_loads py_str json_dumps (network : Network) (now : Q),
     fst (NLB.test_health J json_loads py_str network (world0 now))
       = Normal false ->
     calls (snd (NLB.run J json_loads py_str json_dumps network now))
       = calls (snd (NLB.test_health J json_loads py_str network (world0 now)))
     /\ List.length
          (calls (snd (NLB.run J json_loads py_str json_dumps network now)))
        = 1%nat).
Proof.
  split.
  - intros network now k req e.
    run_script network; pick_clause;
      destruct k as [| [| [| k]]]; cbn; intros H;
      solve [reflexivity | discriminate H | destruct k; discriminate H].
  - intros J json_loads py_str json_dumps network now.
    run_script network; cbn; intros H;
      solve [split; reflexivity | discriminate H].
Qed.

Lemma fail_fast_witness :
  let get := {| method := GET;
                url := E2E.API_GATEWAY_URL ++ "/api/v1/session/test-session-0/status";
                json := None; headers := []; timeout := Some 10 |} in
  let network := Scenario.then_timeout {| status_code := 200; text := "{}" |} in
  nth_error (calls (snd (E2E.run network 0))) 1
    = Some (get, inl Scenario.read_timeout) /\
  List.length (calls (snd (E2E.run network 0))) = 2%nat.
Proof.
  intros get network.
  split; [reflexivity |].
  apply (proj1 fail_fast network 0%Q 1%nat get Scenario.read_timeout).
  reflexivity.
Defined.

(** ** Error kinds *)

Lemma call_appended (cs : list Call) (c c' : Call) :
  (cs ++ [c])%list = (cs ++ [c'])%list -> c = c'.
Proof. intros H. apply app_inv_head in H. now injection H. Qed.


Lemma e2e_kind_of_timeout (e : PyExc) :
  is_Timeout e = true -> failure_kind E2E.handlers e = Some Timeout.
Proof. intros T. cbv [failure_kind E2E.handlers matching_clause isinstance]. now rewrite T. Qed.

Lemma e2e_kind_of_connection_error (e : PyExc) :
  is_Timeout e = false -> is_ConnectionError e = true ->
  failure_kind E2E.handlers e = Some ConnectionError.
Proof.
  intros T C. cbv [failure_kind E2E.handlers matching_clause isinstance].
  now rewrite T, C.
Qed.

(** In a log of at most three calls, find the one that raised [e]. *)
Ltac find_raised H k :=
  destruct k as [| [| [| k]]]; cbn in H;
  try discriminate H; try (destruct k; discriminate H);
  injection H as <- <-.

(** When a call of the NLB script raises, the line the catch-all clause
    prints is on standard output. *)
Lemma nlb_raised_is_printed_as_error
    J json_loads py_str json_dumps (network : Network) (now : Q) k req e :
  nth_error (calls (snd (NLB.run J json_loads py_str json_dumps network now))) k
    = Some (req, inl e) ->
  In ("Error: " ++ exc_str e)
     (stdout (snd (NLB.run J json_loads py_str json_dumps network now))).
Proof.
  run_script network; intros H; find_raised H k; cbn [In]; auto 10.
Qed.

(** When the call of a step of the NLB script raises, the step prints the
    generic error line and returns [False]. *)
Lemma nlb_health_raised
    J (json_loads : string -> string + J) (render : J -> string)
    (network : Network) (w : World) (req : Request) (e : PyExc) :
  calls (snd (NLB.test_health J json_loads render network w))
    = (calls w ++ [(req, inl e)])%list ->
  fst (NLB.test_health J json_loads render network w) = Normal false /\
  stdout (snd (NLB.test_health J json_loads render network w))
    = (stdout w ++
       [ "Testing health endpoint..."; ("Error: " ++ exc_str e)%string ])%list.
Proof.
  run_script network; intros H; apply call_appended in H;
    try discriminate H; injection H as <- <-;
    rewrite <- ?app_assoc; split; reflexivity.
Qed.

Lemma nlb_session_raised
    J (json_loads : string -> string + J) (render : J -> string)
    (network : Network) (w : World) (req : Request) (e : PyExc) :
  calls (snd (NLB.test_session_creation J json_loads render network w))
    = (calls w ++ [(req, inl e)])%list ->
  fst (NLB.test_session_creation J json_loads render network w)
    = Normal false /\
  stdout (snd (NLB.test_session_creation J json_loads render network w))
    = (stdout w ++
       [ (newline ++ "Testing session creation...")%string;
         ("Error: " ++ exc_str e)%string ])%list.
Proof.
  run_script network; intros H; apply call_appended in H;
    try discriminate H; injection H as <- <-;
    rewrite <- ?app_assoc; split; reflexivity.
Qed.

(** In the end-to-end flow a raised timeout prints the timeout line last and
    the exit code is 1. *)
Lemma e2e_raised_timeout
    (network : Network) (now : Q) (k : nat) (req : Request) (e : PyExc) :
  nth_error (calls (snd (E2E.run network now))) k = Some (req, inl e) ->
  is_Timeout e = true ->
  last_line (snd (E2E.run network now)) = "❌ Timeout error: " ++ exc_str e /\
  E2E.exit_code network now = 1.
Proof.
  intros H T. revert H.
  run_script network; pick_clause; intros H; find_raised H k;
    cbn [last]; solve [split; reflexivity | congruence].
Qed.

(** C3, as amended.  In the end-to-end flow a timeout raised by the
    transport is handled by the [Timeout] clause, never by the catch-all:
    the kind is exactly [Timeout], the line printed last is the timeout
    line, and the exit code is 1.  The NLB script has a single catch-all
    clause per step: when the call of a step raises, a timeout included, the
    kind is the generic one, the step prints the same "Error: ..." line as
    for any other exception and returns [False]. *)
Theorem timeout_kind :
  (forall (network : Network) (now : Q) (k : nat) (req : Request) (e : PyExc),
     nth_error (calls (snd (E2E.run network now))) k = Some (req, inl e) ->
     is_Timeout e = true ->
     failure_kind E2E.handlers e = Some Timeout /\
     last_line (snd (E2E.run network now)) = "❌ Timeout error: " ++ exc_str e /\
     E2E.exit_code network now = 1) /\
  (forall J (json_loads : string -> string + J) (render : J -> string)
          (network : Network) (w : World) (req : Request) (e : PyExc),
     calls (snd (NLB.test_health J json_loads render network w))
       = (calls w ++ [(req, inl e)])%list ->
     failure_kind NLB.health_handlers e = Some OtherError /\
     fst (NLB.test_health J json_loads render network w) = Normal false /\
     stdout (snd (NLB.test_health J json_loads render network w))
       = (stdout w ++
          [ "Testing health endpoint...";
            ("Error: " ++ exc_str e)%string ])%list) /\
  (forall J (json_loads : string -> string + J) (render : J -> string)
          (network : Network) (w : World) (req : Request) (e : PyExc),
     calls (snd (NLB.test_session_creation J json_loads render network w))
       = (calls w ++ [(req, inl e)])%list ->
     failure_kind NLB.session_handlers e = Some OtherError /\
     fst (NLB.test_session_creation J json_loads render network w)
       = Normal false /\
     stdout (snd (NLB.test_session_creation J json_loads render network w))
       = (stdout w ++
          [ (newline ++ "Testing session creation...")%string;
            ("Error: " ++ exc_str e)%string ])%list) /\
  (forall J json_loads py_str json_dumps (network : Network) (now : Q)
          (k : nat) (req : Request) (e : PyExc),
     nth_error
       (calls (snd (NLB.run J json_loads py_str json_dumps network now))) k
       = Some (req, inl e) ->
     In ("Error: " ++ exc_str e)
        (stdout (snd (NLB.run J json_loads py_str json_dumps network now)))).
Proof.
  split; [| split; [| split]].
  - intros network now k req e H T.
    split; [now apply e2e_kind_of_timeout |].
    eapply e2e_raised_timeout; eassumption.
  - intros J json_loads render network w req e H.
    split; [reflexivity |]. eapply nlb_health_raised; eassumption.
  - intros J json_loads render network w req e H.
    split; [reflexivity |]. eapply nlb_session_raised; eassumption.
  - intros J json_loads py_str json_dumps network now k req e H.
    eapply nlb_raised_is_printed_as_error; eassumption.
Qed.

Lemma timeout_kind_witness :
  let get := {| method := GET;
                url := E2E.API_GATEWAY_URL ++ "/api/v1/session/test-session-0/status";
                json := None; headers := []; timeout := Some 10 |} in
  let network := Scenario.then_timeout {| status_code := 200; text := "{}" |} in
  (failure_kind E2E.handlers Scenario.read_timeout = Some Timeout /\
   last_line (snd (E2E.run network 0))
     = "❌ Timeout error: " ++ exc_str Scenario.read_timeout /\
   E2E.exit_code network 0 = 1) /\
  (failure_kind NLB.health_handlers Scenario.read_timeout = Some OtherError /\
   fst (Scenario.nlb_test_health Scenario.all_timeout (world0 0))
     = Normal false /\
   stdout (snd (Scenario.nlb_test_health Scenario.all_timeout (world0 0)))
     = [ "Testing health endpoint...";
         ("Error: " ++ exc_str Scenario.read_timeout)%string ]).
Proof.
  intros get network. split.
  - apply (proj1 timeout_kind network 0%Q 1%nat get Scenario.read_timeout);
      reflexivity.
  - apply (proj1 (proj2 timeout_kind) string Scenario.toy_json_loads
             Scenario.toy_str Scenario.all_timeout (world0 0)
             {| method := GET; url := NLB.NLB_URL ++ "/health"; json := None;
                headers := []; timeout := Some 10 |}
             Scenario.read_timeout).
    reflexivity.
Defined.

(** C3, the claim as stated fails on the NLB script: the health call times
    out, the catch-all clause handles it (kind [OtherError], not [Timeout]),
    and what is printed is what is printed for any other exception with the
    same message. *)
Lemma nlb_reports_timeout_as_generic_error :
  is_Timeout Scenario.read_timeout = true /\
  map snd (calls (snd (Scenario.nlb_run Scenario.all_timeout 0)))
    = [inl Scenario.read_timeout] /\
  failure_kind NLB.health_handlers Scenario.read_timeout = Some OtherError /\
  stdout (snd (Scenario.nlb_run Scenario.all_timeout 0))
    = stdout (snd (Scenario.nlb_run
        (Scenario.always_raises
           (Scenario.generic_error (exc_str Scenario.read_timeout))) 0)).
Proof. vm_compute. repeat split. Qed.

(** C4, as amended.  In the end-to-end flow a connection failure raised by
    the transport that is not also a timeout (as a refused connection is)
    is handled by the [ConnectionError] clause: the kind is exactly
    [ConnectionError], the line printed last is the connection-error line,
    and the exit code is 1.  A connection failure that is also a timeout (a
    connect timeout) is handled by the [Timeout] clause, which is written
    first.  The NLB script has a single catch-all clause per step: when the
    call of a step raises, a connection failure included, the kind is the
    generic one, the step prints the same "Error: ..." line as for any other
    exception and returns [False]. *)
Theorem connection_error_kind :
  (forall (network : Network) (now : Q) (k : nat) (req : Request) (e : PyExc),
     nth_error (calls (snd (E2E.run network now))) k = Some (req, inl e) ->
     is_ConnectionError e = true ->
     is_Timeout e = false ->
     failure_kind E2E.handlers e = Some ConnectionError /\
     last_line (snd (E2E.run network now))
       = "❌ Connection error: " ++ exc_str e /\
     E2E.exit_code network now = 1) /\
  (forall (network : Network) (now : Q) (k : nat) (req : Request) (e : PyExc),
     nth_error (calls (snd (E2E.run network now))) k = Some (req, inl e) ->
     is_ConnectionError e = true ->
     is_Timeout e = true ->
     failure_kind E2E.handlers e = Some Timeout /\
     last_line (snd (E2E.run network now))
       = "❌ Timeout error: " ++ exc_str e /\
     E2E.exit_code network now = 1) /\
  (forall J (json_loads : string -> string + J) (render : J -> string)
          (network : Network) (w : World) (req : Request) (e : PyExc),
     calls (snd (NLB.test_health J json_loads render network w))
       = (calls w ++ [(req, inl e)])%list ->
     failure_kind NLB.health_handlers e = Some OtherError /\
     fst (NLB.test_health J json_loads render network w) = Normal false /\
     stdout (snd (NLB.test_health J json_loads render network w))
       = (stdout w ++
          [ "Testing health endpoint...";
            ("Error: " ++ exc_str e)%string ])%list) /\
  (forall J (json_loads : string -> string + J) (render : J -> string)
          (network : Network) (w : World) (req : Request) (e : PyExc),
     calls (snd (NLB.test_session_creation J json_loads render network w))
       = (calls w ++ [(req, inl e)])%list ->
     failure_kind NLB.session_handlers e = Some OtherError /\
     fst (NLB.test_session_creation J json_loads render network w)
       = Normal false /\
     stdout (snd (NLB.test_session_creation J json_loads render network w))
       = (stdout w ++
          [ (newline ++ "Testing session creation...")%string;
            ("Error: " ++ exc_str e)%string ])%list) /\
  (forall J json_loads py_str json_dumps (network : Network) (now : Q)
          (k : nat) (req : Request) (e : PyExc),
     nth_error
       (calls (snd (NLB.run J json_loads py_str json_dumps network now))) k
       = Some (req, inl e) ->
     In ("Error: " ++ exc_str e)
        (stdout (snd (NLB.run J json_loads py_str json_dumps network now)))).
Proof.
  split; [| split; [| split; [| split]]].
  - intros network now k req e H C T.
    split; [now apply e2e_kind_of_connection_error |].
    revert H.
    run_script network; pick_clause; intros H; find_raised H k;
      cbn [last]; solve [split; reflexivity | congruence].
  - intros network now k req e H _ T.
    split; [now apply e2e_kind_of_timeout |].
    eapply e2e_raised_timeout; eassumption.
  - intros J json_loads render network w req e H.
    split; [reflexivity |]. eapply nlb_health_raised; eassumption.
  - intros J json_loads render network w req e H.
    split; [reflexivity |]. eapply nlb_session_raised; eassumption.
  - intros J json_loads py_str json_dumps network now k req e H.
    eapply nlb_raised_is_printed_as_error; eassumption.
Qed.

Lemma connection_error_kind_witness :
  let post := {| method := POST;
                 url := E2E.API_GATEWAY_URL ++ "/api/v1/session/test-session-0/execute";
                 json := Some [("action", "test"); ("data", "hello")];
                 headers := []; timeout := Some 30 |} in
  (failure_kind E2E.handlers Scenario.refused = Some ConnectionError /\
   last_line (snd (E2E.run Scenario.all_refused 0))
     = "❌ Connection error: " ++ exc_str Scenario.refused /\
   E2E.exit_code Scenario.all_refused 0 = 1) /\
  (failure_kind NLB.health_handlers Scenario.refused = Some OtherError /\
   fst (Scenario.nlb_test_health Scenario.all_refused (world0 0))
     = Normal false /\
   stdout (snd (Scenario.nlb_test_health Scenario.all_refused (world0 0)))
     = [ "Testing health endpoint...";
         ("Error: " ++ exc_str Scenario.refused)%string ]).
Proof.
  intros post. split.
  - apply (proj1 connection_error_kind Scenario.all_refused 0%Q 0%nat post
             Scenario.refused); reflexivity.
  - apply (proj1 (proj2 (proj2 connection_error_kind)) string
             Scenario.toy_json_loads Scenario.toy_str Scenario.all_refused
             (world0 0)
             {| method := GET; url := NLB.NLB_URL ++ "/health"; json := None;
                headers := []; timeout := Some 10 |}
             Scenario.refused).
    reflexivity.
Defined.

(** C4, the claim as stated fails twice.  On the NLB script: the health call
    is refused, the catch-all clause handles it (kind [OtherError], not
    [ConnectionError]), and what is printed is what is printed for any other
    exception with the same message.  On the end-to-end flow: a connect
    timeout is a connection failure, and the [Timeout] clause handles it
    (kind [Timeout], the timeout line), not the [ConnectionError] clause. *)
Lemma connection_failure_reported_under_another_kind :
  (is_ConnectionError Scenario.refused = true /\
   map snd (calls (snd (Scenario.nlb_run Scenario.all_refused 0)))
     = [inl Scenario.refused] /\
   failure_kind NLB.health_handlers Scenario.refused = Some OtherError /\
   stdout (snd (Scenario.nlb_run Scenario.all_refused 0))
     = stdout (snd (Scenario.nlb_run
         (Scenario.always_raises
            (Scenario.generic_error (exc_str Scenario.refused))) 0))) /\
  (is_ConnectionError Scenario.connect_timeout = true /\
   map snd
     (calls (snd (E2E.run (Scenario.always_raises Scenario.connect_timeout) 0)))
     = [inl Scenario.connect_timeout] /\
   failure_kind E2E.handlers Scenario.connect_timeout = Some Timeout /\
   last_line (snd (E2E.run (Scenario.always_raises Scenario.connect_timeout) 0))
     = "❌ Timeout error: " ++ exc_str Scenario.connect_timeout).
Proof. vm_compute. repeat split. Qed.

(** ** Status checks of the NLB script *)

(** C5, as amended.  When the call of a step of the NLB script is answered
    with a response, the status is printed, and then: if the body decodes as
    JSON the step succeeds exactly when the status is the expected one (200
    for the health check, 201 for session creation), so that a status
    outside the expected set fails the step with the received status on the
    "Status: ..." line; if the body does not decode, the step fails through
    the catch-all clause whatever the status. *)
Theorem status_check :
  (forall J json_loads py_str (network : Network) (w : World)
          (req : Request) (r : Response),
     calls (snd (NLB.test_health J json_loads py_str network w))
       = (calls w ++ [(req, inr r)])%list ->
     fst (NLB.test_health J json_loads py_str network w)
       = Normal match json_loads (text r) with
                | inr _ => (status_code r =? 200)%Z
                | inl _ => false
                end /\
     stdout (snd (NLB.test_health J json_loads py_str network w))
       = (stdout w ++
          [ "Testing health endpoint...";
            ("Status: " ++ str_of_int (status_code r))%string;
            match json_loads (text r) with
            | inr j => ("Response: " ++ py_str j)%string
            | inl msg => ("Error: " ++ msg)%string
            end ])%list) /\
  (forall J json_loads json_dumps (network : Network) (w : World)
          (req : Request) (r : Response),
     calls (snd (NLB.test_session_creation J json_loads json_dumps network w))
       = (calls w ++ [(req, inr r)])%list ->
     fst (NLB.test_session_creation J json_loads json_dumps network w)
       = Normal match json_loads (text r) with
                | inr _ => (status_code r =? 201)%Z
                | inl _ => false
                end /\
     stdout (snd (NLB.test_session_creation J json_loads json_dumps network w))
       = (stdout w ++
          [ (newline ++ "Testing session creation...")%string;
            ("Status: " ++ str_of_int (status_code r))%string;
            match json_loads (text r) with
            | inr j => ("Response: " ++ json_dumps j)%string
            | inl msg => ("Error: " ++ msg)%string
            end ])%list).
Proof.
  split; intros J json_loads render network w req r;
    unfold_script; next_call network;
    try (intros H; apply call_appended in H; discriminate H);
    destruct (json_loads (text o)) eqn:D;
    cbn [clock calls stdout fst snd app];
    intros H; apply call_appended in H; injection H as <- <-;
    rewrite D, <- ?app_assoc; split; reflexivity.
Qed.

Lemma status_check_witness :
  let network := Scenario.always {| status_code := 500; text := "{}" |} in
  fst (Scenario.nlb_test_health network (world0 0)) = Normal false /\
  stdout (snd (Scenario.nlb_test_health network (world0 0)))
    = [ "Testing health endpoint..."; "Status: 500"; "Response: {}" ].
Proof.
  intros network.
  apply (proj1 status_check string Scenario.toy_json_loads Scenario.toy_str
           network (world0 0)
           {| method := GET; url := NLB.NLB_URL ++ "/health"; json := None;
              headers := []; timeout := Some 10 |}
           {| status_code := 500; text := "{}" |}).
  reflexivity.
Defined.

(** C5, the claim as stated fails: the health endpoint answers 200, the
    expected status, with a body that is not JSON; the step does not
    succeed, it returns [False] through the catch-all clause and the run
    reports a failed health check. *)
Lemma health_200_with_plain_body_fails :
  let network := Scenario.always {| status_code := 200; text := "OK" |} in
  map snd (calls (snd (Scenario.nlb_test_health network (world0 0))))
    = [inr {| status_code := 200; text := "OK" |}] /\
  fst (Scenario.nlb_test_health network (world0 0)) = Normal false /\
  last_line (snd (Scenario.nlb_run network 0))
    = newline ++ "❌ Health check failed".
Proof. vm_compute. repeat split. Qed.

(** ** Session identifiers *)

Lemma to_int_proper (n : Z) :
  Z.to_int n <> Decimal.Pos Decimal.Nil /\ Z.to_int n <> Decimal.Neg Decimal.Nil.
Proof.
  destruct n as [| p | p]; cbn; split; try discriminate;
    intros [= H]; now apply (DecimalPos.Unsigned.to_uint_nonnil p).
Qed.

Lemma str_of_int_inj (n m : Z) : str_of_int n = str_of_int m -> n = m.
Proof.
  unfold str_of_int. intros H.
  apply DecimalZ.to_int_inj.
  destruct (to_int_proper n) as [Hn Hn'], (to_int_proper m) as [Hm Hm'].
  apply (f_equal NilZero.int_of_string) in H.
  rewrite !NilZero.isi in H by assumption.
  now injection H.
Qed.

Lemma append_inv_head (p a b : string) : p ++ a = p ++ b -> a = b.
Proof.
  induction p as [| c p IH]; cbn; [trivial |].
  intros [= H]. now apply IH.
Qed.

(** The identifier the NLB script posts is rendered from the clock as the
    health step left it. *)
Lemma nlb_posted_session_id
    J (json_loads : string -> string + J) (py_str json_dumps : J -> string)
    (network : Network) (now : Q) (second : Call) :
  nth_error
    (calls (snd (NLB.run J json_loads py_str json_dumps network now))) 1
    = Some second ->
  json (fst second)
    = Some [("session_id",
             NLB.session_id
               (clock (snd (NLB.test_health J json_loads py_str network
                              (world0 now)))))].
Proof.
  run_script network; cbn [nth_error]; intros H;
    try discriminate H; injection H as <-; reflexivity.
Qed.

(** C6, as amended.  The identifier is derived from a clock reading
    truncated to whole seconds.  The end-to-end flow reads the clock at the
    start of the run: two runs get different identifiers exactly when their
    start times truncate to different seconds, and the identifier a run
    prints is the one derived from its start time.  The NLB script reads the
    clock when the session-creation step starts, after the health call: two
    runs that reach that step post different identifiers exactly when the
    clock readings after their health calls truncate to different
    seconds. *)
Theorem session_id_distinct_iff_seconds_differ :
  forall (t1 t2 : Q),
    (E2E.SESSION_ID t1 = E2E.SESSION_ID t2 <->
       int_of_float t1 = int_of_float t2) /\
    (NLB.session_id t1 = NLB.session_id t2 <->
       int_of_float t1 = int_of_float t2) /\
    (forall network : Network,
       nth_error (stdout (snd (E2E.run network t1))) 1
         = Some ("Session ID: " ++ E2E.SESSION_ID t1)) /\
    (forall J (json_loads : string -> string + J)
            (py_str json_dumps : J -> string)
            (network1 network2 : Network) (c1 c2 : Call),
       nth_error
         (calls (snd (NLB.run J json_loads py_str json_dumps network1 t1))) 1
         = Some c1 ->
       nth_error
         (calls (snd (NLB.run J json_loads py_str json_dumps network2 t2))) 1
         = Some c2 ->
       (json (fst c1) = json (fst c2) <->
        int_of_float
          (clock (snd (NLB.test_health J json_loads py_str network1
                         (world0 t1))))
        = int_of_float
            (clock (snd (NLB.test_health J json_loads py_str network2
                           (world0 t2)))))).
Proof.
  intros t1 t2. split; [| split; [| split]].
  - unfold E2E.SESSION_ID. split; intros H; [| now rewrite H].
    now apply append_inv_head, str_of_int_inj in H.
  - unfold NLB.session_id. split; intros H; [| now rewrite H].
    now apply append_inv_head, str_of_int_inj in H.
  - intros network. run_script network; pick_clause; reflexivity.
  - intros J json_loads py_str json_dumps network1 network2 c1 c2 H1 H2.
    rewrite (nlb_posted_session_id _ _ _ _ _ _ _ H1).
    rewrite (nlb_posted_session_id _ _ _ _ _ _ _ H2).
    unfold NLB.session_id. split; intros H; [| now rewrite H].
    injection H as H.
    now apply str_of_int_inj in H.
Qed.

Lemma session_id_distinct_iff_seconds_differ_witness :
  let d : Call := (mkRequest GET "" None [] None, inl Scenario.refused) in
  let c1 := nth 1 (calls (snd (Scenario.nlb_run Scenario.healthy (9 # 10)))) d in
  let c2 := nth 1 (calls (snd (Scenario.nlb_run Scenario.healthy (1 # 2)))) d in
  int_of_float (9 # 10) = int_of_float (1 # 2) /\
  json (fst c1) = Some [("session_id", "test-nlb-1")] /\
  json (fst c2) = Some [("session_id", "test-nlb-0")] /\
  (json (fst c1) = json (fst c2) <->
   int_of_float
     (clock (snd (Scenario.nlb_test_health Scenario.healthy (world0 (9 # 10)))))
   = int_of_float
       (clock (snd (Scenario.nlb_test_health Scenario.healthy
                      (world0 (1 # 2)))))).
Proof.
  intros d c1 c2.
  split; [reflexivity |]. split; [reflexivity |]. split; [reflexivity |].
  apply (proj2 (proj2 (proj2
           (session_id_distinct_iff_seconds_differ (9 # 10) (1 # 2))))
           string Scenario.toy_json_loads Scenario.toy_str Scenario.toy_str
           Scenario.healthy Scenario.healthy c1 c2);
    reflexivity.
Defined.

(** C6, the claim as stated fails: two runs started half a second apart,
    within the same second, generate the same identifier.  For the
    end-to-end flow both print the same session line; for the NLB script,
    against a load balancer that answers the health check in a tenth of a
    second, both post the same identifier. *)
Lemma same_second_same_session_id :
  let t1 := 1700000000 # 1 in
  let t2 := 3400000001 # 2 in
  let d : Call := (mkRequest GET "" None [] None, inl Scenario.refused) in
  ~ (t1 == t2)%Q /\
  E2E.SESSION_ID t1 = "test-session-1700000000" /\
  E2E.SESSION_ID t2 = "test-session-1700000000" /\
  nth_error (stdout (snd (E2E.run Scenario.all_500 t1))) 1
    = nth_error (stdout (snd (E2E.run Scenario.all_500 t2))) 1 /\
  json (fst (nth 1 (calls (snd (Scenario.nlb_run Scenario.healthy t1))) d))
    = Some [("session_id", "test-nlb-1700000000")] /\
  json (fst (nth 1 (calls (snd (Scenario.nlb_run Scenario.healthy t2))) d))
    = Some [("session_id", "test-nlb-1700000000")].
Proof.
  cbv zeta. split; [unfold Qeq; cbn; lia |].
  vm_compute. repeat split.
Qed.

(** C7.  Every call of a run of the end-to-end flow addresses the session
    whose identifier was generated from the clock at the start of the run,
    however long the earlier calls took. *)
Theorem one_session_id_per_run :
  forall (network : Network) (now : Q),
    Forall
      (fun c : Call =>
         url (fst c) = E2E.API_GATEWAY_URL ++ "/api/v1/session/"
                         ++ E2E.SESSION_ID now ++ "/execute"
         \/ url (fst c) = E2E.API_GATEWAY_URL ++ "/api/v1/session/"
                            ++ E2E.SESSION_ID now ++ "/status")
      (calls (snd (E2E.run network now))).
Proof.
  intros network now.
  run_script network; pick_clause;
    repeat (constructor; cbn [fst url]; auto).
Qed.

(** C8.  The first and the third call of a run of the end-to-end flow are
    sent to byte-identical URLs: the execute path rendered from the run's
    session identifier. *)
Theorem execute_url_rendered_identically :
  forall (network : Network) (now : Q) (first third : Call),
    nth_error (calls (snd (E2E.run network now))) 0 = Some first ->
    nth_error (calls (snd (E2E.run network now))) 2 = Some third ->
    url (fst first) = url (fst third) /\
    url (fst third) = E2E.API_GATEWAY_URL ++ "/api/v1/session/"
                        ++ E2E.SESSION_ID now ++ "/execute".
Proof.
  intros network now first third.
  run_script network; pick_clause; cbn [nth_error];
    intros [= <-] H3; try discriminate H3;
    injection H3 as <-; split; reflexivity.
Qed.

Lemma execute_url_rendered_identically_witness :
  let cs := calls (snd (E2E.run Scenario.all_500 (17 # 1))) in
  url (fst (nth 0 cs (mkRequest GET "" None [] None, inl Scenario.refused)))
    = url (fst (nth 2 cs (mkRequest GET "" None [] None, inl Scenario.refused)))
  /\ url (fst (nth 2 cs (mkRequest GET "" None [] None, inl Scenario.refused)))
     = E2E.API_GATEWAY_URL ++ "/api/v1/session/test-session-17/execute".
Proof.
  intros cs.
  apply (execute_url_rendered_identically Scenario.all_500 (17 # 1));
    reflexivity.
Defined.

(** ** Timeouts *)





(** ** The end-to-end flow does not look at status codes *)

(** C10.  In the end-to-end flow, when every call made was answered with a
    response, whatever the status codes, all three calls are made, the
    success line is printed last and the exit code is 0; and a run whose
    exit code is not 0 has a call that raised. *)
Theorem any_response_counts_as_success :
  forall (network : Network) (now : Q),
    (forallb received (calls (snd (E2E.run network now))) = true ->
     List.length (calls (snd (E2E.run network now))) = 3%nat /\
     last_line (snd (E2E.run network now))
       = "✅ End-to-end test completed successfully!" /\
     E2E.exit_code network now = 0) /\
    (E2E.exit_code network now <> 0 ->
     exists (k : nat) (req : Request) (e : PyExc),
       nth_error (calls (snd (E2E.run network now))) k = Some (req, inl e)).
Proof.
  intros network now. split.
  - run_script network; pick_clause; cbn; intros H;
      solve [discriminate H | repeat split].
  - run_script network; pick_clause; cbn; intros H;
      try (now contradiction H);
      first [ exists 0%nat; do 2 eexists; reflexivity
            | exists 1%nat; do 2 eexists; reflexivity
            | exists 2%nat; do 2 eexists; reflexivity ].
Qed.

Lemma any_response_counts_as_success_witness :
  map (fun c : Call => match snd c with
                       | inr r => Some (status_code r)
                       | inl _ => None
                       end)
      (calls (snd (E2E.run Scenario.all_500 0)))
    = [Some 500; Some 500; Some 500] /\
  List.length (calls (snd (E2E.run Scenario.all_500 0))) = 3%nat /\
  last_line (snd (E2E.run Scenario.all_500 0))
    = "✅ End-to-end test completed successfully!" /\
  E2E.exit_code Scenario.all_500 0 = 0.
Proof.
  split; [reflexivity |].
  apply (proj1 (any_response_counts_as_success Scenario.all_500 0)).
  reflexivity.
Defined.

(** * Further properties of the two scripts *)

(** Membership in a list given by its elements. *)
Ltac in_list := cbn [In]; repeat first [left; reflexivity | right].

(** ** test-e2e-flow.py *)

(** X1.  A run of the end-to-end flow always leaves through [sys.exit], with
    status 0 or 1: it never runs off the end of the module and no exception
    escapes the [try] statement.  It makes at least one and at most three
    calls. *)
Theorem e2e_leaves_through_sys_exit :
  forall (network : Network) (now : Q),
    (fst (E2E.run network now) = SystemExit 0 \/
     fst (E2E.run network now) = SystemExit 1) /\
    (1 <= List.length (calls (snd (E2E.run network now))) <= 3)%nat.
Proof.
  intros network now.
  run_script network; pick_clause; cbn [List.length]; split; auto; lia.
Qed.

(** X2.  An exception that is neither a [Timeout] nor a [ConnectionError]
    reaches the last clause, [except Exception]: the generic error line with
    the text of the exception is printed last and the exit code is 1. *)
Theorem e2e_other_exception_kind :
  forall (network : Network) (now : Q) (k : nat) (req : Request) (e : PyExc),
    nth_error (calls (snd (E2E.run network now))) k = Some (req, inl e) ->
    is_Timeout e = false ->
    is_ConnectionError e = false ->
    failure_kind E2E.handlers e = Some OtherError /\
    last_line (snd (E2E.run network now)) = "❌ Error: " ++ exc_str e /\
    E2E.exit_code network now = 1.
Proof.
  intros network now k req e H T C.
  split.
  - cbv [failure_kind E2E.handlers matching_clause isinstance].
    now rewrite T, C.
  - revert H.
    run_script network; pick_clause; intros H; find_raised H k;
      cbn [last]; solve [split; reflexivity | congruence].
Qed.

Lemma e2e_other_exception_kind_witness :
  let e := Scenario.generic_error "Invalid URL" in
  let post := {| method := POST;
                 url := E2E.API_GATEWAY_URL ++ "/api/v1/session/test-session-3/execute";
                 json := Some [("action", "test"); ("data", "hello")];
                 headers := []; timeout := Some 30 |} in
  failure_kind E2E.handlers e = Some OtherError /\
  last_line (snd (E2E.run (Scenario.always_raises e) (7 # 2)))
    = "❌ Error: Invalid URL" /\
  E2E.exit_code (Scenario.always_raises e) (7 # 2) = 1.
Proof.
  intros e post.
  apply (e2e_other_exception_kind (Scenario.always_raises e) (7 # 2) 0%nat
           post e); reflexivity.
Defined.

(** X3.  What the end-to-end flow sends does not depend on what it receives:
    two runs started at the same clock reading against different networks
    issue the same request at every position both reach. *)
Theorem e2e_requests_ignore_answers :
  forall (network1 network2 : Network) (now : Q) (k : nat) (c1 c2 : Call),
    nth_error (calls (snd (E2E.run network1 now))) k = Some c1 ->
    nth_error (calls (snd (E2E.run network2 now))) k = Some c2 ->
    fst c1 = fst c2.
Proof.
  intros network1 network2 now k c1 c2.
  run_script network1; pick_clause;
    repeat next_call network2; pick_clause;
    destruct k as [| [| [| k]]]; cbn [nth_error];
    intros H1 H2;
    try discriminate H1; try discriminate H2;
    try (destruct k; discriminate H1);
    injection H1 as <-; injection H2 as <-; reflexivity.
Qed.

Lemma e2e_requests_ignore_answers_witness :
  let network1 := Scenario.all_500 in
  let network2 := Scenario.then_timeout {| status_code := 200; text := "ok" |} in
  let d : Call := (mkRequest GET "" None [] None, inl Scenario.refused) in
  fst (nth 1 (calls (snd (E2E.run network1 0))) d)
    = fst (nth 1 (calls (snd (E2E.run network2 0))) d).
Proof.
  intros network1 network2 d.
  apply (e2e_requests_ignore_answers network1 network2 0%Q 1%nat);
    reflexivity.
Defined.

(** X4.  Every response the end-to-end flow receives is reported: its status
    code and its body are each on a line of standard output. *)
Theorem e2e_responses_are_printed :
  forall (network : Network) (now : Q) (k : nat) (req : Request) (r : Response),
    nth_error (calls (snd (E2E.run network now))) k = Some (req, inr r) ->
    In ("Response Status: " ++ str_of_int (status_code r))
       (stdout (snd (E2E.run network now))) /\
    In ("Response: " ++ text r ++ newline)
       (stdout (snd (E2E.run network now))).
Proof.
  intros network now k req r.
  run_script network; pick_clause; intros H;
    destruct k as [| [| [| k]]]; cbn [nth_error] in H;
    try discriminate H; try (destruct k; discriminate H);
    injection H as <- <-; split; in_list.
Qed.

Lemma e2e_responses_are_printed_witness :
  let run := E2E.run Scenario.all_500 0 in
  In "Response Status: 500" (stdout (snd run)) /\
  In ("Response: Internal Server Error" ++ newline) (stdout (snd run)).
Proof.
  intros run.
  apply (e2e_responses_are_printed Scenario.all_500 0%Q 2%nat
           {| method := POST;
              url := E2E.API_GATEWAY_URL ++ "/api/v1/session/test-session-0/execute";
              json := Some [("action", "test2"); ("data", "world")];
              headers := []; timeout := Some 10 |}
           {| status_code := 500; text := "Internal Server Error" |}).
  reflexivity.
Defined.

(** X5.  The [print] of the success message is executed exactly when the
    exit code is 0: among the [print] calls of a failed run none has the
    success message as its argument.  (The text itself can still reach the
    output of a failed run inside a response body or an exception message,
    which are echoed verbatim.) *)
Theorem e2e_success_line_iff_exit_0 :
  forall (network : Network) (now : Q),
    In "✅ End-to-end test completed successfully!"
       (stdout (snd (E2E.run network now)))
    <-> E2E.exit_code network now = 0.
Proof.
  intros network now.
  run_script network; pick_clause; split; intros H;
    try reflexivity; try discriminate H; try (now in_list);
    exfalso; cbn in H; intuition discriminate.
Qed.

(** ** test-nlb-session.py *)

(** X6.  Neither step function lets an exception escape, and each makes
    exactly one call: [test_health] a GET of the health URL with a timeout of
    10, [test_session_creation] a POST to the sessions URL with a timeout of
    30 whose body carries the identifier derived from the clock at the
    moment the step starts.  Both return a boolean whatever the transport
    and the decoder do. *)
Theorem nlb_steps_return_and_call_once :
  forall J (json_loads : string -> string + J) (render : J -> string)
         (network : Network) (w : World),
    (exists (b : bool) (o : Outcome),
       fst (NLB.test_health J json_loads render network w) = Normal b /\
       calls (snd (NLB.test_health J json_loads render network w))
         = (calls w ++
            [({| method := GET; url := NLB.NLB_URL ++ "/health";
                 json := None; headers := []; timeout := Some 10 |}, o)])%list)
    /\
    (exists (b : bool) (o : Outcome),
       fst (NLB.test_session_creation J json_loads render network w)
         = Normal b /\
       calls (snd (NLB.test_session_creation J json_loads render network w))
         = (calls w ++
            [({| method := POST; url := NLB.NLB_URL ++ "/sessions";
                 json := Some [("session_id", NLB.session_id (clock w))];
                 headers := [("Content-Type", "application/json")];
                 timeout := Some 30 |}, o)])%list).
Proof.
  intros J json_loads render network w.
  split; run_script network; do 2 eexists; split; reflexivity.
Qed.

(** X7.  A run of the NLB script ends with the line that all tests passed
    exactly when two calls were made, the first answered 200 and the second
    answered 201, both with a body that decodes as JSON. *)
Theorem nlb_all_passed_iff :
  forall J (json_loads : string -> string + J) (py_str json_dumps : J -> string)
         (network : Network) (now : Q),
    last_line (snd (NLB.run J json_loads py_str json_dumps network now))
      = newline ++ "✅ ALL TESTS PASSED!"
    <->
    exists (q1 q2 : Request) (r1 r2 : Response) (j1 j2 : J),
      calls (snd (NLB.run J json_loads py_str json_dumps network now))
        = [(q1, inr r1); (q2, inr r2)] /\
      status_code r1 = 200 /\ json_loads (text r1) = inr j1 /\
      status_code r2 = 201 /\ json_loads (text r2) = inr j2.
Proof.
  intros J json_loads py_str json_dumps network now.
  run_script network; cbn [last]; split.
  all: try (intros H; apply append_inv_head in H; discriminate H).
  all: try (intros (q1 & q2 & r1 & r2 & j1 & j2 & Hc & S1 & D1 & S2 & D2);
            injection Hc; intros; subst;
            first [ discriminate
                  | congruence
                  | rewrite S1 in *; discriminate
                  | rewrite S2 in *; discriminate ]).
  intros _. apply Z.eqb_eq in S, S0. repeat eexists; eassumption.
Qed.

(** X8.  A run of the NLB script always ends with one of its three verdict
    lines, and the verdict is the failed health check exactly when the
    health call is the only call made. *)
Theorem nlb_prints_one_verdict :
  forall J (json_loads : string -> string + J) (py_str json_dumps : J -> string)
         (network : Network) (now : Q),
    let run := NLB.run J json_loads py_str json_dumps network now in
    (last_line (snd run) = newline ++ "✅ ALL TESTS PASSED!" \/
     last_line (snd run) = newline ++ "❌ Session creation failed" \/
     last_line (snd run) = newline ++ "❌ Health check failed") /\
    (last_line (snd run) = newline ++ "❌ Health check failed" <->
     List.length (calls (snd run)) = 1%nat).
Proof.
  intros J json_loads py_str json_dumps network now run. subst run.
  run_script network; cbn [last List.length]; split; auto; split; intros H;
    try reflexivity; try discriminate H;
    apply append_inv_head in H; discriminate H.
Qed.

(** X9.  The session-creation step is attempted only after a healthy answer:
    when a run makes a second call, the first was answered 200 with a body
    that decodes, and the identifier in the body of the second is derived
    from the clock as it stands after the health call, not from the start of
    the run. *)
Theorem nlb_session_creation_follows_health :
  forall J (json_loads : string -> string + J) (py_str json_dumps : J -> string)
         (network : Network) (now : Q) (second : Call),
    nth_error
      (calls (snd (NLB.run J json_loads py_str json_dumps network now))) 1
      = Some second ->
    (exists (q1 : Request) (r1 : Response) (j1 : J),
       nth_error
         (calls (snd (NLB.run J json_loads py_str json_dumps network now))) 0
         = Some (q1, inr r1) /\
       status_code r1 = 200 /\ json_loads (text r1) = inr j1) /\
    json (fst second)
      = Some [("session_id",
               NLB.session_id
                 (clock (snd (NLB.test_health J json_loads py_str network
                                (world0 now)))))].
Proof.
  intros J json_loads py_str json_dumps network now second.
  run_script network; cbn [nth_error]; intros H;
    try discriminate H; injection H as <-;
    (split; [| reflexivity]);
    apply Z.eqb_eq in S; repeat eexists; eassumption.
Qed.

Lemma nlb_session_creation_follows_health_witness :
  let slow : Network :=
    fun history _ =>
      match history with
      | [] => (inr {| status_code := 200; text := "{}" |}, 3 # 2)
      | _ => (inr {| status_code := 201; text := "{}" |}, 1 # 2)
      end in
  json (fst (nth 1 (calls (snd (Scenario.nlb_run slow 0)))
               (mkRequest GET "" None [] None, inl Scenario.refused)))
    = Some [("session_id", "test-nlb-1")].
Proof.
  intros slow.
  refine (proj2 (nlb_session_creation_follows_health string
                   Scenario.toy_json_loads Scenario.toy_str Scenario.toy_str
                   slow 0%Q _ _)).
  reflexivity.
Defined.

(** X10.  Every response the NLB script receives has its status code printed
    on a "Status: ..." line, also when the body then fails to decode. *)
Theorem nlb_status_is_printed :
  forall J (json_loads : string -> string + J) (py_str json_dumps : J -> string)
         (network : Network) (now : Q) (k : nat) (req : Request) (r : Response),
    nth_error
      (calls (snd (NLB.run J json_loads py_str json_dumps network now))) k
      = Some (req, inr r) ->
    In ("Status: " ++ str_of_int (status_code r))
       (stdout (snd (NLB.run J json_loads py_str json_dumps network now))).
Proof.
  intros J json_loads py_str json_dumps network now k req r.
  run_script network; intros H;
    destruct k as [| [| k]]; cbn [nth_error] in H;
    try discriminate H; try (destruct k; discriminate H);
    injection H as <- <-; in_list.
Qed.

Lemma nlb_status_is_printed_witness :
  In "Status: 200"
     (stdout (snd (Scenario.nlb_run
                     (Scenario.always {| status_code := 200; text := "OK" |})
                     0))).
Proof.
  apply (nlb_status_is_printed string Scenario.toy_json_loads Scenario.toy_str
           Scenario.toy_str
           (Scenario.always {| status_code := 200; text := "OK" |}) 0%Q 0%nat
           {| method := GET; url := NLB.NLB_URL ++ "/health"; json := None;
              headers := []; timeout := Some 10 |}
           {| status_code := 200; text := "OK" |}).
  reflexivity.
Defined.

(** X11.  A run of the NLB script always runs off the end of its main block:
    no exception escapes the step functions and nothing calls [sys.exit].
    It makes one call or two. *)
Theorem nlb_runs_to_the_end :
  forall J (json_loads : string -> string + J) (py_str json_dumps : J -> string)
         (network : Network) (now : Q),
    fst (NLB.run J json_loads py_str json_dumps network now) = Normal tt /\
    (1 <= List.length
            (calls (snd (NLB.run J json_loads py_str json_dumps network now)))
       <= 2)%nat.
Proof.
  intros J json_loads py_str json_dumps network now.
  run_script network; cbn [List.length]; split; auto; lia.
Qed.
